(** * JobSpy MCP server: the search adapter and the site catalog

    A shallow embedding of [src/jobspy_server.py].  The file has two tools,
    [search_jobs] and [get_job_sites].  [search_jobs] normalises its
    parameters, calls the external [scrape_jobs] once, turns the table it
    gets back into a list of dictionaries, replaces NaN by None and wraps
    everything in a result dictionary; one [try]/[except Exception] encloses
    the whole body, and its handler writes the exception out before it
    returns the error dictionary.

    Modelling choices, all read off the source:
    - Python values that flow through dictionaries are the inductive
      [Py.value]; floats keep the IEEE classes of [spec_float], so NaN is a
      value of its own;
    - a [str] is a sequence of code points below 256, one [ascii] each, and
      [Py.lower] is [str.lower] on that range;
    - a dictionary with string keys is a [gmap string _];
    - the body of [search_jobs] runs in a monad that threads the log of calls
      made to [scrape_jobs] and may raise an exception;
    - [scrape_jobs] itself is a parameter: any function from keyword
      arguments to either an exception or an object answering [len] and
      [to_dict('records')];
    - an exception is an object with a class, a text and a traceback;
      [except Exception] lets through what is not an instance of
      [Exception];
    - the [print] lines of the body write the parameters and two counts to
      stdout and are left out; the lines of the handler, which write a
      foreign exception out, may raise and are modelled. *)

From Stdlib Require Import ZArith String Ascii List Bool Lia.
From Stdlib Require Import Floats.SpecFloat.
From stdpp Require Import base option list gmap strings fin_maps.

Open Scope string_scope.

(** ** Python values *)

Module Py.

#[warnings="-register-all"]
Inductive value : Type :=
| VNone
| VBool (b : bool)
| VInt (z : Z)
| VFloat (f : spec_float)
| VStr (s : string)
| VList (l : list value).

(** [bool(v)]: the truth value Python's [if v:] tests. *)
Definition truthy (v : value) : bool :=
  match v with
  | VNone => false
  | VBool b => b
  | VInt z => negb (z =? 0)%Z
  | VFloat (S754_zero _) => false
  | VFloat _ => true
  | VStr s => negb (s =? "")
  | VList l => match l with [] => false | _ :: _ => true end
  end.

(** [isinstance(v, float)]; [bool] and [int] are not floats. *)
Definition isinstance_float (v : value) : bool :=
  match v with
  | VFloat _ => true
  | _ => false
  end.

(** [str(v) == 'nan'].  The text of a float is ['nan'] exactly for a NaN
    (['inf'], ['-inf'] or digits otherwise); a string is its own text; the
    text of None, of a bool, of an int and of a list is never ['nan']. *)
Definition str_is_nan (v : value) : bool :=
  match v with
  | VFloat S754_nan => true
  | VStr s => s =? "nan"
  | _ => false
  end.

(** [c.lower()] for one code point below 256: A-Z, and the Latin-1 capitals
    U+00C0..U+00DE without the multiplication sign U+00D7, move up by 32. *)
Definition lower_char (c : ascii) : ascii :=
  let n := N_of_ascii c in
  if ((65 <=? n) && (n <=? 90)
      || (192 <=? n) && (n <=? 222) && negb (n =? 215))%N
  then ascii_of_N (n + 32)
  else c.

(** [s.lower()] *)
Fixpoint lower (s : string) : string :=
  match s with
  | EmptyString => EmptyString
  | String c rest => String (lower_char c) (lower rest)
  end.

(** [x in l] for a list of strings. *)
Definition str_in (x : string) (l : list string) : bool :=
  existsb (String.eqb x) l.

(** A list of [str] as a Python list value. *)
Definition str_list (l : list string) : value := VList (VStr <$> l).

(** An optional [str]: None or the text. *)
Definition opt_str (o : option string) : value := from_option VStr VNone o.

(** A raised exception, seen through what the server does with it:
    [exc_is_Exception e] is [isinstance(e, Exception)], false for a
    KeyboardInterrupt, a SystemExit and any other class that derives from
    BaseException only; [exc_str e] is what [str(e)] returns;
    [exc_report e] is the exception raised, if any, while the text and the
    traceback of [e] are written out. *)
#[warnings="-register-all"]
Inductive exn : Type := Exn {
  exc_type : string;
  exc_is_Exception : bool;
  exc_str : string;
  exc_report : option exn
}.

End Py.

Import Py.

(** ** Effects: a call log and exceptions *)

Module Eff.

Inductive outcome (A : Type) : Type :=
| Returned (a : A)
| Raised (e : exn).
Arguments Returned {A} a.
Arguments Raised {A} e.

Section WithLog.
(** [Call]: what one call to the collaborator is logged as. *)
Context {Call : Type}.

Definition M (A : Type) : Type := list Call → outcome A * list Call.

Definition ret {A} (a : A) : M A := λ log, (Returned a, log).

Definition bind {A B} (m : M A) (k : A → M B) : M B :=
  λ log,
    match m log with
    | (Returned a, log') => k a log'
    | (Raised e, log') => (Raised e, log')
    end.

(** An operation that returns or raises without touching the log. *)
Definition lift {A} (o : outcome A) : M A := λ log, (o, log).

(** A call to the collaborator [f]: logged, then it returns or raises. *)
Definition call {A} (f : Call → outcome A) (c : Call) : M A :=
  λ log, (f c, (log ++ [c])%list).

(** [try: m  except C as e: h e], where [isinstance_C] tests the class [C]:
    an exception of another class is not caught and goes on. *)
Definition try_except {A} (m : M A) (isinstance_C : exn → bool)
  (h : exn → M A) : M A :=
  λ log,
    match m log with
    | (Returned a, log') => (Returned a, log')
    | (Raised e, log') =>
        if isinstance_C e then h e log' else (Raised e, log')
    end.
End WithLog.
Arguments M : clear implicits.

End Eff.

Import Eff.

Notation "x <- m ;; k" := (bind m (λ x, k))
  (at level 100, m at next level, right associativity,
   format "'[v' x  <-  m  ;;  '/' k ']'") : stdpp_scope.

(** ** The server *)

Module Server.

(** *** Data *)

(** A job record and the keyword arguments of [scrape_jobs]: dictionaries
    with string keys. *)
Abbreviation dict := (gmap string value).

(** What [scrape_jobs] hands back, seen through the two operations the
    server applies to it: [len(jobs_df)] and [jobs_df.to_dict('records')].
    Each returns or raises; a DataFrame returns from both. *)
Record table : Type := Table {
  table_len : outcome nat;
  to_dict_records : outcome (list dict)
}.

(** The parameters of [search_jobs] once Python has bound them. *)
Record params : Type := Params {
  search_term : string;
  location : string;
  site_name : option (list string);
  results_wanted : Z;
  hours_old : Z;
  country_indeed : string;
  job_type : option string;
  is_remote : option bool;
  distance : Z;
  linkedin_fetch_description : bool;
  offset : Z
}.

(** The arguments of one tool call: [search_term] is required, every other
    parameter may be left out ([None] here), and a parameter whose default
    is None may as well be passed as null. *)
Record tool_call : Type := ToolCall {
  arg_search_term : string;
  arg_location : option string;
  arg_site_name : option (list string);
  arg_results_wanted : option Z;
  arg_hours_old : option Z;
  arg_country_indeed : option string;
  arg_job_type : option string;
  arg_is_remote : option bool;
  arg_distance : option Z;
  arg_linkedin_fetch_description : option bool;
  arg_offset : option Z
}.

(** The defaults of the signature of [search_jobs]. *)
Definition bind_defaults (c : tool_call) : params :=
  {| search_term := arg_search_term c;
     location := default "" (arg_location c);
     site_name := arg_site_name c;
     results_wanted := default 20%Z (arg_results_wanted c);
     hours_old := default 72%Z (arg_hours_old c);
     country_indeed := default "USA" (arg_country_indeed c);
     job_type := arg_job_type c;
     is_remote := arg_is_remote c;
     distance := default 50%Z (arg_distance c);
     linkedin_fetch_description :=
       default false (arg_linkedin_fetch_description c);
     offset := default 0%Z (arg_offset c) |}.

(** The value of ["search_params"] in a successful result. *)
Record search_params : Type := SearchParams {
  sp_search_term : string;
  sp_location : string;
  sp_sites : list string;
  sp_results_wanted : Z;
  sp_hours_old : Z
}.

(** The two dictionaries [search_jobs] returns:
    [{"jobs": .., "count": .., "search_params": {..}}] and
    [{"error": .., "jobs": ..}]. *)
Inductive search_result : Type :=
| Found (jobs : list dict) (count : nat) (sp : search_params)
| Failed (error : string) (jobs : list dict).

(** The dictionary [get_job_sites] returns. *)
Record site_entry : Type := SiteEntry {
  name : string;
  description : string
}.

Record catalog : Type := Catalog {
  sites : list site_entry;
  note : string
}.

(** *** search_jobs *)

(** Lines 47-48: [if site_name is None: site_name = [...]]. *)
Definition default_sites : list string :=
  ["indeed"; "linkedin"; "zip_recruiter"].

Definition resolve_site_name (site_name : option (list string))
  : list string :=
  match site_name with
  | None => default_sites
  | Some l => l
  end.

(** Line 51. *)
Definition valid_sites : list string :=
  ["linkedin"; "indeed"; "zip_recruiter"; "glassdoor"; "google"].

(** Line 52:
    [[site for site in site_name if site.lower() in valid_sites]]. *)
Fixpoint validate_sites (site_name : list string) : list string :=
  match site_name with
  | [] => []
  | site :: rest =>
      if str_in (lower site) valid_sites
      then site :: validate_sites rest
      else validate_sites rest
  end.

(** The value of [site_name] from line 52 on. *)
Definition effective_sites (p : params) : list string :=
  validate_sites (resolve_site_name (site_name p)).

(** Lines 60-78: the keyword arguments for [scrape_jobs]. *)
Definition build_kwargs (site_name : list string) (p : params) : dict :=
  let kwargs : dict :=
    list_to_map
      [ ("site_name", str_list site_name);
        ("search_term", VStr (search_term p));
        ("results_wanted", VInt (results_wanted p));
        ("hours_old", VInt (hours_old p));
        ("country_indeed", VStr (country_indeed p));
        ("linkedin_fetch_description",
          VBool (linkedin_fetch_description p));
        ("offset", VInt (offset p)) ] in
  let kwargs :=
    if truthy (VStr (location p))
    then <["location" := VStr (location p)]> kwargs else kwargs in
  let kwargs :=
    if truthy (opt_str (job_type p))
    then <["job_type" := opt_str (job_type p)]> kwargs else kwargs in
  let kwargs :=
    match is_remote p with
    | Some b => <["is_remote" := VBool b]> kwargs
    | None => kwargs
    end in
  let kwargs :=
    if truthy (VInt (distance p))
    then <["distance" := VInt (distance p)]> kwargs else kwargs in
  kwargs.

(** Lines 90-92, for one job: the loop runs over the items of [job] and
    assigns into [job] itself. *)
Definition clean_job (job : dict) : dict :=
  map_fold
    (λ key value job,
       if isinstance_float value && str_is_nan value
       then <[key := VNone]> job
       else job)
    job job.

(** Lines 89-92: [for job in jobs_list]. *)
Fixpoint clean_jobs (jobs_list : list dict) : list dict :=
  match jobs_list with
  | [] => []
  | job :: rest => clean_job job :: clean_jobs rest
  end.

(** Lines 109-111: [print] of [str(e)], then [traceback.print_exc()]. *)
Definition print_diagnostics (e : exn) : outcome unit :=
  match exc_report e with
  | None => Returned ()
  | Some e' => Raised e'
  end.

Section WithScraper.
(** The external [jobspy.scrape_jobs], called with keyword arguments. *)
Variable scrape_jobs : dict → outcome table.

(** Lines 44-106: the body of the [try]. *)
Definition search_jobs_body (p : params) : M dict search_result :=
  let site_name := resolve_site_name (site_name p) in
  let site_name := validate_sites site_name in
  if negb (truthy (str_list site_name))
  then ret (Failed "No valid job sites provided" [])
  else
    let kwargs := build_kwargs site_name p in
    jobs_df <- call scrape_jobs kwargs ;;
    _ <- lift (table_len jobs_df) ;;
    jobs_list <- lift (to_dict_records jobs_df) ;;
    let jobs_list := clean_jobs jobs_list in
    ret (Found jobs_list (length jobs_list)
           {| sp_search_term := search_term p;
              sp_location := location p;
              sp_sites := site_name;
              sp_results_wanted := results_wanted p;
              sp_hours_old := hours_old p |}).

(** Lines 43-112: [try: .. except Exception as e: ..; return {..}]. *)
Definition search_jobs (p : params) : M dict search_result :=
  try_except (search_jobs_body p) exc_is_Exception
    (λ e,
       _ <- lift (print_diagnostics e) ;;
       ret (Failed (exc_str e) [])).

(** One tool call, from an empty log: the result and the calls made. *)
Definition invoke (c : tool_call)
  : outcome search_result * list dict :=
  search_jobs (bind_defaults c) [].
End WithScraper.

(** *** get_job_sites *)

(** Lines 116-146; the function takes no argument. *)
Definition get_job_sites (_ : unit) : catalog :=
  {| sites :=
       [ {| name := "linkedin";
            description := "LinkedIn Jobs - Professional networking platform with extensive job listings" |};
         {| name := "indeed";
            description := "Indeed - One of the largest job search engines worldwide" |};
         {| name := "zip_recruiter";
            description := "ZipRecruiter - Job search platform with smart matching technology" |};
         {| name := "glassdoor";
            description := "Glassdoor - Job listings with company reviews and salary information" |};
         {| name := "google";
            description := "Google Jobs - Aggregated job listings from across the web" |} ];
     note := "You can search multiple sites simultaneously by passing a list of site names" |}.

End Server.

Import Server.

(** ** Vocabulary of the statements *)

Module Spec.

(** A site the filter of line 52 lets through: a case variant of a member
    of [valid_sites]. *)
Definition recognised (site : string) : Prop := lower site ∈ valid_sites.

(** The filtered sequence in the words of the specification: the lowercase
    canonical form of every recognised element, in the caller's order. *)
Definition spec_canonical_sites (site_name : list string) : list string :=
  lower <$> filter (λ site, lower site ∈ valid_sites) site_name.

(** The effective site set in the words of the specification: the default
    sequence when [site_name] is absent or empty. *)
Definition absent_or_empty (site_name : option (list string)) : Prop :=
  site_name = None ∨ site_name = Some [].

(** The numeric not-a-number sentinel. *)
Definition nan_sentinel (v : value) : bool :=
  match v with
  | VFloat S754_nan => true
  | _ => false
  end.

(** What a returned job holds under a key whose raw value is [v]. *)
Definition nan_to_none (v : value) : value :=
  if nan_sentinel v then VNone else v.

(** "The caller supplied a truthy value", for a text and for an integer. *)
Definition supplied_text (o : option string) : bool :=
  match o with
  | Some s => negb (s =? "")
  | None => false
  end.

Definition supplied_nonzero (o : option Z) : bool :=
  match o with
  | Some z => negb (z =? 0)%Z
  | None => false
  end.

(** A failure [e] raised while delegating with the arguments [kwargs] or
    while converting what came back: [scrape_jobs] raises, or the object it
    returns raises from [len], or from [to_dict('records')]. *)
Inductive fails_with (scrape_jobs : dict → outcome table) (kwargs : dict)
  (e : exn) : Prop :=
| delegation_raises :
    scrape_jobs kwargs = Raised e →
    fails_with scrape_jobs kwargs e
| len_raises (t : table) :
    scrape_jobs kwargs = Returned t →
    table_len t = Raised e →
    fails_with scrape_jobs kwargs e
| conversion_raises (t : table) (n : nat) :
    scrape_jobs kwargs = Returned t →
    table_len t = Returned n →
    to_dict_records t = Raised e →
    fails_with scrape_jobs kwargs e.

(** What lines 108-112 make of an exception [e] raised in the body: the
    error dictionary when [e] is an instance of [Exception] and is written
    out; else [e] itself, or what writing it out raised. *)
Definition except_outcome (e : exn) : outcome search_result :=
  if exc_is_Exception e
  then match exc_report e with
       | None => Returned (Failed (exc_str e) [])
       | Some e' => Raised e'
       end
  else Raised e.

(** The keys [search_jobs] puts into every argument set. *)
Definition required_keys : gset string :=
  {[ "site_name"; "search_term"; "results_wanted"; "hours_old";
     "country_indeed"; "linkedin_fetch_description"; "offset" ]}.

Definition optional_keys : gset string :=
  {[ "location"; "job_type"; "is_remote"; "distance" ]}.

End Spec.

Import Spec.

(** ** Sample inputs *)

Module Sample.

(** A call that supplies [search_term] and nothing else. *)
Definition bare (term : string) : tool_call :=
  {| arg_search_term := term;
     arg_location := None;
     arg_site_name := None;
     arg_results_wanted := None;
     arg_hours_old := None;
     arg_country_indeed := None;
     arg_job_type := None;
     arg_is_remote := None;
     arg_distance := None;
     arg_linkedin_fetch_description := None;
     arg_offset := None |}.

(** [{search_term: "nurse", location: "", is_remote: null}] *)
Definition nurse : tool_call :=
  {| arg_search_term := "nurse";
     arg_location := Some "";
     arg_site_name := None;
     arg_results_wanted := None;
     arg_hours_old := None;
     arg_country_indeed := None;
     arg_job_type := None;
     arg_is_remote := None;
     arg_distance := None;
     arg_linkedin_fetch_description := None;
     arg_offset := None |}.

(** [{search_term: "data analyst", site_name: [..]}] *)
Definition analyst (site_name : list string) : tool_call :=
  {| arg_search_term := "data analyst";
     arg_location := None;
     arg_site_name := Some site_name;
     arg_results_wanted := None;
     arg_hours_old := None;
     arg_country_indeed := None;
     arg_job_type := None;
     arg_is_remote := None;
     arg_distance := None;
     arg_linkedin_fetch_description := None;
     arg_offset := None |}.

(** [{search_term: "welder", is_remote: false}] *)
Definition on_site : tool_call :=
  {| arg_search_term := "welder";
     arg_location := Some "Austin, TX";
     arg_site_name := Some ["indeed"];
     arg_results_wanted := Some 5%Z;
     arg_hours_old := None;
     arg_country_indeed := None;
     arg_job_type := Some "fulltime";
     arg_is_remote := Some false;
     arg_distance := Some 0%Z;
     arg_linkedin_fetch_description := None;
     arg_offset := None |}.

(** Three rows, the second with a NaN salary. *)
Definition rows : list dict :=
  [ {[ "title" := VStr "Nurse I"; "min_amount" := VFloat (S754_finite false 5 3) ]};
    {[ "title" := VStr "Nurse II"; "min_amount" := VFloat S754_nan ]};
    {[ "title" := VStr "nan"; "is_remote" := VBool true ]} ].

(** A scraper that answers every call with a DataFrame of [rs]. *)
Definition scrape_rows (rs : list dict) : dict → outcome table :=
  λ _, Returned {| table_len := Returned (length rs);
                   to_dict_records := Returned rs |}.

(** A scraper that raises on every call. *)
Definition timeout : exn :=
  {| exc_type := "TimeoutError";
     exc_is_Exception := true;
     exc_str := "connection timed out";
     exc_report := None |}.

Definition scrape_raises : dict → outcome table := λ _, Raised timeout.

(** A scraper that returns None: [len(None)] raises a TypeError. *)
Definition no_len : exn :=
  {| exc_type := "TypeError";
     exc_is_Exception := true;
     exc_str := "object of type 'NoneType' has no len()";
     exc_report := None |}.

Definition no_to_dict : exn :=
  {| exc_type := "AttributeError";
     exc_is_Exception := true;
     exc_str := "'NoneType' object has no attribute 'to_dict'";
     exc_report := None |}.

Definition scrape_none : dict → outcome table :=
  λ _, Returned {| table_len := Raised no_len;
                   to_dict_records := Raised no_to_dict |}.

(** A scraper interrupted from the keyboard: KeyboardInterrupt derives from
    BaseException, not from Exception. *)
Definition interrupt : exn :=
  {| exc_type := "KeyboardInterrupt";
     exc_is_Exception := false;
     exc_str := "";
     exc_report := None |}.

Definition scrape_interrupted : dict → outcome table :=
  λ _, Raised interrupt.

End Sample.

(** ** Running [search_jobs] *)

Section Run.
Variable scrape_jobs : dict → outcome table.

(** The empty list is the only falsy list. *)
Lemma truthy_str_list (l : list string) :
  truthy (str_list l) = match l with [] => false | _ :: _ => true end.
Proof. by destruct l. Qed.

(** The [except] clause applied to an exception [e] raised in the body. *)
Lemma except_run (e : exn) (log : list dict) :
  (if exc_is_Exception e
   then bind (lift (print_diagnostics e))
          (λ _, ret (Failed (exc_str e) [])) log
   else (Raised e, log)) =
  (except_outcome e, log).
Proof.
  unfold except_outcome, print_diagnostics, bind, lift, ret.
  destruct (exc_is_Exception e); [|done]. by destruct (exc_report e).
Qed.

(** [search_jobs] unfolded: what it returns and what it logs, by cases on
    the filtered sites and on what the scraper and its table do. *)
Lemma search_jobs_run (p : params) (log : list dict) :
  search_jobs scrape_jobs p log =
    match effective_sites p with
    | [] => (Returned (Failed "No valid job sites provided" []), log)
    | _ :: _ =>
        let kwargs := build_kwargs (effective_sites p) p in
        (match scrape_jobs kwargs with
         | Raised e => except_outcome e
         | Returned jobs_df =>
             match table_len jobs_df with
             | Raised e => except_outcome e
             | Returned _ =>
                 match to_dict_records jobs_df with
                 | Raised e => except_outcome e
                 | Returned jobs_list =>
                     Returned
                       (Found (clean_jobs jobs_list)
                          (length (clean_jobs jobs_list))
                          {| sp_search_term := search_term p;
                             sp_location := location p;
                             sp_sites := effective_sites p;
                             sp_results_wanted := results_wanted p;
                             sp_hours_old := hours_old p |})
                 end
             end
         end, log ++ [kwargs])%list
    end.
Proof.
  unfold search_jobs, search_jobs_body, try_except.
  fold (effective_sites p). rewrite truthy_str_list.
  destruct (effective_sites p) as [|site rest] eqn:Hsites; [done|].
  cbn [negb]. unfold bind, call, lift, ret.
  destruct (scrape_jobs _) as [jobs_df|e]; [|apply except_run].
  destruct (table_len jobs_df) as [n|e]; [|apply except_run].
  destruct (to_dict_records jobs_df) as [jobs_list|e];
    [done|apply except_run].
Qed.

(** The calls [search_jobs] adds to the log: none, or one. *)
Lemma search_jobs_log (p : params) (log : list dict) :
  (search_jobs scrape_jobs p log).2 =
    match effective_sites p with
    | [] => log
    | _ :: _ => (log ++ [build_kwargs (effective_sites p) p])%list
    end.
Proof. rewrite search_jobs_run. by destruct (effective_sites p). Qed.

End Run.

(** The three ways out of the [except] clause. *)
Lemma except_outcome_found (e : exn) (jobs : list dict) (count : nat)
  (sp : search_params) :
  except_outcome e ≠ Returned (Found jobs count sp).
Proof.
  unfold except_outcome.
  destruct (exc_is_Exception e); [|done]. by destruct (exc_report e).
Qed.

Lemma except_outcome_failed (e : exn) (error : string) (jobs : list dict) :
  except_outcome e = Returned (Failed error jobs) →
  error = exc_str e ∧ jobs = [] ∧
  exc_is_Exception e = true ∧ exc_report e = None.
Proof.
  unfold except_outcome.
  destruct (exc_is_Exception e); [|done].
  destruct (exc_report e); [done|]. by intros [= <- <-].
Qed.

Lemma except_outcome_raised (e e' : exn) :
  except_outcome e = Raised e' →
  exc_is_Exception e = false ∧ e' = e
  ∨ exc_is_Exception e = true ∧ exc_report e = Some e'.
Proof.
  unfold except_outcome.
  destruct (exc_is_Exception e); [|intros [= <-]; by left].
  destruct (exc_report e) as [e''|]; [|done]. intros [= <-]. by right.
Qed.

(** ** The site filter *)

Lemma str_in_elem_of (x : string) (l : list string) :
  str_in x l = true ↔ x ∈ l.
Proof.
  unfold str_in. rewrite existsb_exists, list_elem_of_In. split.
  - intros (y & Hy & Heq). apply String.eqb_eq in Heq. by subst.
  - intros Hx. exists x. by rewrite String.eqb_refl.
Qed.

Lemma validate_sites_cons (site : string) (rest : list string) :
  validate_sites (site :: rest) =
    if decide (recognised site)
    then site :: validate_sites rest
    else validate_sites rest.
Proof.
  cbn [validate_sites]. unfold recognised.
  destruct (str_in _ _) eqn:Hin; case_decide as Hrec; try done.
  - by apply str_in_elem_of in Hin.
  - apply str_in_elem_of in Hrec. congruence.
Qed.

#[local] Ltac by_site_cases site_name :=
  induction site_name as [|site rest IH];
  [ | rewrite validate_sites_cons; case_decide ].

Lemma validate_sites_sublist (site_name : list string) :
  validate_sites site_name `sublist_of` site_name.
Proof.
  by_site_cases site_name.
  - done.
  - by apply sublist_skip.
  - by apply sublist_cons.
Qed.

Lemma validate_sites_recognised (site_name : list string) :
  Forall recognised (validate_sites site_name).
Proof. by_site_cases site_name; by try constructor. Qed.

Lemma validate_sites_count (site_name : list string) (s : string) :
  recognised s →
  count_occ string_dec (validate_sites site_name) s =
    count_occ string_dec site_name s.
Proof.
  intros Hs. by_site_cases site_name.
  - done.
  - cbn [count_occ]. by rewrite IH.
  - cbn [count_occ]. destruct (string_dec site s); [by subst|done].
Qed.

Lemma validate_default_sites : validate_sites default_sites = default_sites.
Proof. reflexivity. Qed.

(** ** The keyword arguments *)

#[local] Ltac kwargs_cases :=
  unfold build_kwargs; cbn zeta; repeat case_match; simplify_map_eq.

Lemma build_kwargs_required (sites : list string) (p : params) :
  let kwargs := build_kwargs sites p in
  kwargs !! "site_name" = Some (str_list sites) ∧
  kwargs !! "search_term" = Some (VStr (search_term p)) ∧
  kwargs !! "results_wanted" = Some (VInt (results_wanted p)) ∧
  kwargs !! "hours_old" = Some (VInt (hours_old p)) ∧
  kwargs !! "country_indeed" = Some (VStr (country_indeed p)) ∧
  kwargs !! "linkedin_fetch_description" =
    Some (VBool (linkedin_fetch_description p)) ∧
  kwargs !! "offset" = Some (VInt (offset p)).
Proof. cbn zeta. repeat split; by kwargs_cases. Qed.

Lemma build_kwargs_location (sites : list string) (p : params) :
  build_kwargs sites p !! "location" =
    if location p =? "" then None else Some (VStr (location p)).
Proof. kwargs_cases; by destruct (location p =? ""). Qed.

Lemma build_kwargs_job_type (sites : list string) (p : params) :
  build_kwargs sites p !! "job_type" =
    match job_type p with
    | Some s => if s =? "" then None else Some (VStr s)
    | None => None
    end.
Proof.
  unfold build_kwargs. cbn zeta.
  destruct (job_type p) as [jt|]; cbn [opt_str from_option truthy];
    [destruct (jt =? "")|]; cbn [negb];
    repeat case_match; by simplify_map_eq.
Qed.

Lemma build_kwargs_is_remote (sites : list string) (p : params) :
  build_kwargs sites p !! "is_remote" = VBool <$> is_remote p.
Proof. by kwargs_cases. Qed.

Lemma build_kwargs_distance (sites : list string) (p : params) :
  build_kwargs sites p !! "distance" =
    if (distance p =? 0)%Z then None else Some (VInt (distance p)).
Proof. kwargs_cases; by destruct (distance p =? 0)%Z. Qed.

Lemma build_kwargs_dom (sites : list string) (p : params) :
  dom (build_kwargs sites p) ⊆ required_keys ∪ optional_keys.
Proof.
  unfold build_kwargs. cbn zeta.
  repeat case_match; by apply (bool_decide_unpack _); vm_compute.
Qed.

(** Every logged call of one invocation carries the arguments built from
    the bound parameters and the filtered sites. *)
Lemma invoke_log (scrape_jobs : dict → outcome table) (c : tool_call)
  (kwargs : dict) :
  kwargs ∈ (invoke scrape_jobs c).2 →
  kwargs =
    build_kwargs (effective_sites (bind_defaults c)) (bind_defaults c).
Proof.
  unfold invoke. rewrite search_jobs_log.
  destruct (effective_sites _); cbn [app]; intros Hin.
  - by apply elem_of_nil in Hin.
  - by apply list_elem_of_singleton in Hin.
Qed.

(** ** NaN to None *)

(** The test of line 91 holds of the NaN float and of nothing else: the
    string "nan" has that text but is no float. *)
Lemma nan_test (v : value) :
  isinstance_float v && str_is_nan v = nan_sentinel v.
Proof. by destruct v as [| | |[]| |]. Qed.

(** The loop over the items of [job], started from any dictionary [acc]:
    a key of [job] with a NaN value is set to None, the rest of [acc] stays. *)
Lemma clean_fold_lookup (job acc : dict) (key : string) :
  map_fold
    (λ key value job,
       if isinstance_float value && str_is_nan value
       then <[key := VNone]> job
       else job)
    acc job !! key =
  match job !! key with
  | Some v => if nan_sentinel v then Some VNone else acc !! key
  | None => acc !! key
  end.
Proof.
  revert key.
  apply (map_fold_weak_ind
           (λ (r m : dict), ∀ key,
              r !! key =
                match m !! key with
                | Some v => if nan_sentinel v then Some VNone else acc !! key
                | None => acc !! key
                end)).
  - intros key. by rewrite lookup_empty.
  - intros i x m r Hfresh IH key. rewrite nan_test.
    destruct (decide (i = key)) as [->|Hne].
    + rewrite lookup_insert_eq.
      destruct (nan_sentinel x); [by rewrite lookup_insert_eq|].
      by rewrite IH, Hfresh.
    + rewrite (lookup_insert_ne m) by done.
      destruct (nan_sentinel x); [rewrite lookup_insert_ne by done|];
        apply IH.
Qed.

Lemma clean_job_lookup (job : dict) (key : string) :
  clean_job job !! key = nan_to_none <$> job !! key.
Proof.
  unfold clean_job. rewrite clean_fold_lookup. unfold nan_to_none.
  destruct (job !! key) as [v|] eqn:Hv; [|done]. cbn.
  by destruct (nan_sentinel v).
Qed.

Lemma clean_jobs_length (jobs_list : list dict) :
  length (clean_jobs jobs_list) = length jobs_list.
Proof. induction jobs_list; cbn; congruence. Qed.

Lemma clean_jobs_lookup (jobs_list : list dict) (i : nat) :
  clean_jobs jobs_list !! i = clean_job <$> jobs_list !! i.
Proof.
  revert i. induction jobs_list as [|job rest IH]; intros [|i]; cbn; auto.
Qed.

(** ** The shape of the result *)

(** A successful result comes from one place only: line 96. *)
Lemma found_inv
  (scrape_jobs : dict → outcome table) (p : params) (log : list dict)
  (jobs : list dict) (count : nat) (sp : search_params) :
  (search_jobs scrape_jobs p log).1 = Returned (Found jobs count sp) →
  effective_sites p ≠ [] ∧
  ∃ jobs_df jobs_list,
    scrape_jobs (build_kwargs (effective_sites p) p) = Returned jobs_df ∧
    to_dict_records jobs_df = Returned jobs_list ∧
    jobs = clean_jobs jobs_list ∧
    count = length jobs ∧
    sp = {| sp_search_term := search_term p;
            sp_location := location p;
            sp_sites := effective_sites p;
            sp_results_wanted := results_wanted p;
            sp_hours_old := hours_old p |}.
Proof.
  rewrite search_jobs_run.
  destruct (effective_sites p) as [|site rest] eqn:Heff; [done|].
  cbn zeta. cbn [fst].
  destruct (scrape_jobs _) as [jobs_df|e] eqn:Hscrape;
    [|by intros ?%except_outcome_found].
  destruct (table_len jobs_df) as [n|e];
    [|by intros ?%except_outcome_found].
  destruct (to_dict_records jobs_df) as [jobs_list|e] eqn:Hrecords;
    [|by intros ?%except_outcome_found].
  intros [= <- <- <-]. split; [done|]. by exists jobs_df, jobs_list.
Qed.

(** ** Failures *)

(** C1 (as stated, refuted): a scraper interrupted from the keyboard raises
    a KeyboardInterrupt during the delegation; it is no instance of
    [Exception], line 108 does not catch it, and it leaves [search_jobs]:
    no result is returned. *)
Lemma search_jobs_propagates_interrupt :
  fails_with Sample.scrape_interrupted
    (build_kwargs default_sites (bind_defaults Sample.nurse))
    Sample.interrupt ∧
  search_jobs Sample.scrape_interrupted (bind_defaults Sample.nurse) [] =
    (Raised Sample.interrupt,
     [build_kwargs default_sites (bind_defaults Sample.nurse)]) ∧
  ¬ ∃ result log',
      search_jobs Sample.scrape_interrupted (bind_defaults Sample.nurse) [] =
        (Returned result, log').
Proof.
  assert (search_jobs Sample.scrape_interrupted
            (bind_defaults Sample.nurse) [] =
          (Raised Sample.interrupt,
           [build_kwargs default_sites (bind_defaults Sample.nurse)]))
    as Hrun by reflexivity.
  split; [by apply delegation_raises|]. split; [exact Hrun|].
  intros (result & log' & Hreturned). congruence.
Qed.

(** C1 (amended): when a delegation takes place and fails with an instance
    [e] of [Exception], be it [scrape_jobs] raising or the object it
    returned raising while it is measured or converted, and the handler
    writes [e] out, the result is [{"error": str(e), "jobs": []}] and
    nothing propagates.  What does leave [search_jobs] is only ever a
    failure of the delegation that is no instance of [Exception]
    (KeyboardInterrupt, SystemExit), or what the handler raised while
    writing a caught one out; without a delegation nothing is raised. *)
Theorem search_jobs_catches_exceptions
  (scrape_jobs : dict → outcome table) (p : params) (log : list dict) :
  (∀ e,
     effective_sites p ≠ [] →
     fails_with scrape_jobs (build_kwargs (effective_sites p) p) e →
     exc_is_Exception e = true →
     exc_report e = None →
     search_jobs scrape_jobs p log =
       (Returned (Failed (exc_str e) []),
        (log ++ [build_kwargs (effective_sites p) p])%list)) ∧
  (∀ e' log',
     search_jobs scrape_jobs p log = (Raised e', log') →
     effective_sites p ≠ [] ∧
     log' = (log ++ [build_kwargs (effective_sites p) p])%list ∧
     ∃ e,
       fails_with scrape_jobs (build_kwargs (effective_sites p) p) e ∧
       (exc_is_Exception e = false ∧ e' = e
        ∨ exc_is_Exception e = true ∧ exc_report e = Some e')).
Proof.
  split.
  - intros e Hsites Hfails Hclass Hreport. rewrite search_jobs_run.
    destruct (effective_sites p) as [|site rest] eqn:Heff; [done|].
    cbn zeta.
    assert (except_outcome e = Returned (Failed (exc_str e) [])) as Hcaught.
    { unfold except_outcome. by rewrite Hclass, Hreport. }
    destruct Hfails as [Hscrape|t Hscrape Hlen|t n Hscrape Hlen Hrecords].
    + by rewrite Hscrape, Hcaught.
    + by rewrite Hscrape, Hlen, Hcaught.
    + by rewrite Hscrape, Hlen, Hrecords, Hcaught.
  - intros e' log'. rewrite search_jobs_run.
    destruct (effective_sites p) as [|site rest] eqn:Heff; [done|].
    cbn zeta.
    destruct (scrape_jobs _) as [jobs_df|e] eqn:Hscrape.
    + destruct (table_len jobs_df) as [n|e] eqn:Hlen.
      * destruct (to_dict_records jobs_df) as [jobs_list|e] eqn:Hrecords;
          [done|].
        intros [= Hout <-]. split; [done|]. split; [done|].
        exists e. split; [by eapply conversion_raises|].
        by apply except_outcome_raised.
      * intros [= Hout <-]. split; [done|]. split; [done|].
        exists e. split; [by eapply len_raises|].
        by apply except_outcome_raised.
    + intros [= Hout <-]. split; [done|]. split; [done|].
      exists e. split; [by apply delegation_raises|].
      by apply except_outcome_raised.
Qed.

Lemma search_jobs_catches_exceptions_witness :
  search_jobs Sample.scrape_raises (bind_defaults Sample.nurse) [] =
    (Returned (Failed "connection timed out" []),
     [build_kwargs default_sites (bind_defaults Sample.nurse)]) ∧
  search_jobs Sample.scrape_none (bind_defaults Sample.nurse) [] =
    (Returned (Failed "object of type 'NoneType' has no len()" []),
     [build_kwargs default_sites (bind_defaults Sample.nurse)]).
Proof.
  split.
  - apply (proj1 (search_jobs_catches_exceptions Sample.scrape_raises
                    (bind_defaults Sample.nurse) []) Sample.timeout).
    + vm_compute. discriminate.
    + apply delegation_raises. reflexivity.
    + reflexivity.
    + reflexivity.
  - apply (proj1 (search_jobs_catches_exceptions Sample.scrape_none
                    (bind_defaults Sample.nurse) []) Sample.no_len).
    + vm_compute. discriminate.
    + apply (len_raises _ _ _
               {| table_len := Raised Sample.no_len;
                  to_dict_records := Raised Sample.no_to_dict |});
        reflexivity.
    + reflexivity.
    + reflexivity.
Defined.

(** ** Sites in effect *)

(** C2 (as stated, refuted): an empty [site_name] is absent-or-empty in the
    sense of the claim, yet the sites in effect are not the default
    sequence: they are empty, the call returns the "no valid sites" error
    and [scrape_jobs] is not called at all. *)
Lemma empty_site_name_not_defaulted :
  absent_or_empty (arg_site_name (Sample.analyst [])) ∧
  effective_sites (bind_defaults (Sample.analyst [])) ≠ default_sites ∧
  invoke (Sample.scrape_rows Sample.rows) (Sample.analyst []) =
    (Returned (Failed "No valid job sites provided" []), []).
Proof. split; [by right|]. split; [discriminate|reflexivity]. Qed.

(** C2 (amended): when [site_name] is absent (None), the sites in effect are
    exactly the default sequence [indeed, linkedin, zip_recruiter], and
    [scrape_jobs] is called once, with that sequence as its [site_name].
    When [site_name] is the empty sequence, no default is put in its place:
    the sites in effect are empty and the call returns the "no valid sites"
    error without calling [scrape_jobs]. *)
Theorem absent_site_name_defaulted
  (scrape_jobs : dict → outcome table) (p : params) (log : list dict) :
  (site_name p = None →
   effective_sites p = default_sites ∧
   ∃ kwargs,
     (search_jobs scrape_jobs p log).2 = (log ++ [kwargs])%list ∧
     kwargs !! "site_name" = Some (str_list default_sites)) ∧
  (site_name p = Some [] →
   effective_sites p = [] ∧
   search_jobs scrape_jobs p log =
     (Returned (Failed "No valid job sites provided" []), log)).
Proof.
  split; intros Hsite_name.
  - assert (effective_sites p = default_sites) as Hsites.
    { unfold effective_sites. by rewrite Hsite_name. }
    split; [done|]. exists (build_kwargs default_sites p). split.
    + by rewrite search_jobs_log, Hsites.
    + apply build_kwargs_required.
  - assert (effective_sites p = []) as Hsites.
    { unfold effective_sites. by rewrite Hsite_name. }
    split; [done|]. by rewrite search_jobs_run, Hsites.
Qed.

Lemma absent_site_name_defaulted_witness :
  site_name (bind_defaults Sample.nurse) = None ∧
  effective_sites (bind_defaults Sample.nurse) = default_sites ∧
  ∃ kwargs,
    (search_jobs (Sample.scrape_rows Sample.rows)
       (bind_defaults Sample.nurse) []).2 = ([] ++ [kwargs])%list ∧
    kwargs !! "site_name" = Some (str_list default_sites).
Proof.
  split; [reflexivity|].
  apply (proj1 (absent_site_name_defaulted (Sample.scrape_rows Sample.rows)
                  (bind_defaults Sample.nurse) [])).
  reflexivity.
Defined.

(** C3 (as stated, refuted): for [["INDEED", "monster"]] the filter keeps
    "INDEED" as the caller wrote it; the lowercase form "indeed", which the
    claim puts in the filtered sequence, is not in it. *)
Lemma validate_sites_not_canonical :
  validate_sites ["INDEED"; "monster"] = ["INDEED"] ∧
  spec_canonical_sites ["INDEED"; "monster"] = ["indeed"] ∧
  validate_sites ["INDEED"; "monster"] ≠ spec_canonical_sites ["INDEED"; "monster"].
Proof. split; [reflexivity|]. split; [reflexivity|discriminate]. Qed.

(** C3 (amended): the filtered sequence is a subsequence of the caller's
    sequence (the caller's order, every element as the caller wrote it, not
    lowercased); all its elements are case variants of a valid site; and a
    case variant of a valid site occurs in it as often as in the caller's
    sequence.  So unrecognised elements are dropped and nothing else is; the
    filter is a total function and raises nothing. *)
Theorem validate_sites_keeps_recognised (site_name : list string) :
  validate_sites site_name `sublist_of` site_name ∧
  Forall recognised (validate_sites site_name) ∧
  ∀ site,
    recognised site →
    count_occ string_dec (validate_sites site_name) site =
      count_occ string_dec site_name site.
Proof.
  split; [apply validate_sites_sublist|].
  split; [apply validate_sites_recognised|].
  intros site. apply validate_sites_count.
Qed.

(** C4: when no site survives the filter, [search_jobs] returns
    [{"error": "No valid job sites provided", "jobs": []}] and the log of
    calls to [scrape_jobs] is what it was: no delegation. *)
Theorem no_valid_sites_no_delegation
  (scrape_jobs : dict → outcome table) (p : params) (log : list dict) :
  effective_sites p = [] →
  search_jobs scrape_jobs p log =
    (Returned (Failed "No valid job sites provided" []), log).
Proof. intros Hnil. by rewrite search_jobs_run, Hnil. Qed.

Lemma no_valid_sites_no_delegation_witness :
  effective_sites (bind_defaults (Sample.analyst ["monster"])) = [] ∧
  search_jobs Sample.scrape_raises
    (bind_defaults (Sample.analyst ["monster"])) [] =
    (Returned (Failed "No valid job sites provided" []), []).
Proof.
  split; [reflexivity|].
  apply (no_valid_sites_no_delegation Sample.scrape_raises
           (bind_defaults (Sample.analyst ["monster"])) []).
  reflexivity.
Defined.

(** ** Arguments of the delegation *)

(** C5 (as stated, refuted): the call [{search_term: "nurse", location: "",
    is_remote: null}] supplies no [distance], yet the arguments handed to
    [scrape_jobs] carry [distance = 50], the default of the signature. *)
Lemma absent_distance_forwarded :
  arg_distance Sample.nurse = None ∧
  supplied_nonzero (arg_distance Sample.nurse) = false ∧
  ∃ kwargs,
    (invoke (Sample.scrape_rows Sample.rows) Sample.nurse).2 = [kwargs] ∧
    kwargs !! "distance" = Some (VInt 50).
Proof.
  split; [reflexivity|]. split; [reflexivity|].
  exists (build_kwargs default_sites (bind_defaults Sample.nurse)). split.
  - unfold invoke. by rewrite search_jobs_log.
  - by rewrite build_kwargs_distance.
Qed.

(** C5 (amended): the arguments of every delegation hold [site_name] (the
    filtered sites), [search_term], [results_wanted], [hours_old],
    [country_indeed], [linkedin_fetch_description] and [offset]; they hold
    [location] exactly when the caller supplied a non-empty text, [job_type]
    exactly when the caller supplied a non-empty text, [is_remote] exactly
    when the caller supplied a boolean, true or false, and [distance]
    exactly when its value in effect, the caller's or else the default 50,
    is not zero; they hold no other key.  So an absent [location],
    [job_type] or [is_remote] is not forwarded, and an absent [distance] is
    forwarded as 50. *)
Theorem delegation_arguments
  (scrape_jobs : dict → outcome table) (c : tool_call) (kwargs : dict) :
  kwargs ∈ (invoke scrape_jobs c).2 →
  (kwargs !! "site_name" =
     Some (str_list (effective_sites (bind_defaults c))) ∧
   kwargs !! "search_term" = Some (VStr (arg_search_term c)) ∧
   kwargs !! "results_wanted" =
     Some (VInt (default 20%Z (arg_results_wanted c))) ∧
   kwargs !! "hours_old" = Some (VInt (default 72%Z (arg_hours_old c))) ∧
   kwargs !! "country_indeed" =
     Some (VStr (default "USA" (arg_country_indeed c))) ∧
   kwargs !! "linkedin_fetch_description" =
     Some (VBool (default false (arg_linkedin_fetch_description c))) ∧
   kwargs !! "offset" = Some (VInt (default 0%Z (arg_offset c)))) ∧
  kwargs !! "location" =
    (if supplied_text (arg_location c)
     then VStr <$> arg_location c else None) ∧
  kwargs !! "job_type" =
    (if supplied_text (arg_job_type c)
     then VStr <$> arg_job_type c else None) ∧
  kwargs !! "is_remote" = VBool <$> arg_is_remote c ∧
  kwargs !! "distance" =
    (if (default 50 (arg_distance c) =? 0)%Z
     then None else Some (VInt (default 50%Z (arg_distance c)))) ∧
  dom kwargs ⊆ required_keys ∪ optional_keys.
Proof.
  intros ->%invoke_log.
  split; [apply build_kwargs_required|].
  rewrite build_kwargs_location, build_kwargs_job_type,
    build_kwargs_is_remote, build_kwargs_distance.
  cbn [bind_defaults location job_type is_remote distance].
  repeat split.
  - destruct (arg_location c) as [l|]; [|done]. cbn.
    by destruct (l =? "").
  - destruct (arg_job_type c) as [jt|]; [|done]. cbn.
    by destruct (jt =? "").
  - apply build_kwargs_dom.
Qed.

Lemma delegation_arguments_witness :
  let kwargs :=
    build_kwargs ["indeed"] (bind_defaults Sample.on_site) in
  kwargs ∈ (invoke Sample.scrape_raises Sample.on_site).2 ∧
  kwargs !! "location" = Some (VStr "Austin, TX") ∧
  kwargs !! "job_type" = Some (VStr "fulltime") ∧
  kwargs !! "is_remote" = Some (VBool false) ∧
  kwargs !! "distance" = None.
Proof.
  cbn zeta.
  assert (build_kwargs ["indeed"] (bind_defaults Sample.on_site)
            ∈ (invoke Sample.scrape_raises Sample.on_site).2) as Hin.
  { cbv [invoke]. apply list_elem_of_here. }
  split; [exact Hin|].
  destruct (delegation_arguments Sample.scrape_raises Sample.on_site _ Hin)
    as (_ & Hlocation & Hjob_type & His_remote & Hdistance & _).
  repeat split; assumption.
Defined.

(** C9: whenever a delegation takes place, its arguments hold [is_remote]
    with the caller's value, so [False] for a caller who passed false; the
    key is missing only when the caller passed no value (None). *)
Theorem is_remote_false_forwarded
  (scrape_jobs : dict → outcome table) (p : params) (log : list dict) :
  effective_sites p ≠ [] →
  ∃ kwargs,
    (search_jobs scrape_jobs p log).2 = (log ++ [kwargs])%list ∧
    (is_remote p = Some false → kwargs !! "is_remote" = Some (VBool false)) ∧
    (kwargs !! "is_remote" = None ↔ is_remote p = None).
Proof.
  intros Hsites. exists (build_kwargs (effective_sites p) p).
  rewrite search_jobs_log, build_kwargs_is_remote.
  destruct (effective_sites p); [done|]. split; [done|].
  destruct (is_remote p) as [[]|]; cbn; split; try split; congruence.
Qed.

Lemma is_remote_false_forwarded_witness :
  effective_sites (bind_defaults Sample.on_site) ≠ [] ∧
  ∃ kwargs,
    (search_jobs Sample.scrape_raises (bind_defaults Sample.on_site) []).2 =
      ([] ++ [kwargs])%list ∧
    (is_remote (bind_defaults Sample.on_site) = Some false →
     kwargs !! "is_remote" = Some (VBool false)) ∧
    (kwargs !! "is_remote" = None ↔
     is_remote (bind_defaults Sample.on_site) = None).
Proof.
  split; [vm_compute; discriminate|].
  apply (is_remote_false_forwarded Sample.scrape_raises
           (bind_defaults Sample.on_site) []).
  vm_compute. discriminate.
Defined.

(** ** Returned jobs *)

(** C6: when the scraper returns a table that converts to the records
    [rows], [search_jobs] succeeds with as many jobs as there are rows, in
    the same order, and the i-th job has, under every key, what the i-th row
    has there, except that a NaN float has become None: same keys, NaN
    replaced, every other value as it was. *)
Theorem nan_replaced_by_none
  (scrape_jobs : dict → outcome table) (p : params) (log : list dict)
  (jobs_df : table) (n : nat) (rows : list dict) :
  effective_sites p ≠ [] →
  scrape_jobs (build_kwargs (effective_sites p) p) = Returned jobs_df →
  table_len jobs_df = Returned n →
  to_dict_records jobs_df = Returned rows →
  ∃ jobs count sp,
    (search_jobs scrape_jobs p log).1 = Returned (Found jobs count sp) ∧
    length jobs = length rows ∧
    ∀ i row,
      rows !! i = Some row →
      ∃ job,
        jobs !! i = Some job ∧
        ∀ key, job !! key = nan_to_none <$> row !! key.
Proof.
  intros Hsites Hscrape Hlen Hrecords.
  rewrite search_jobs_run.
  destruct (effective_sites p) as [|site rest] eqn:Heff; [done|].
  cbn zeta. rewrite Hscrape, Hlen, Hrecords. cbn [fst].
  eexists _, _, _. split; [reflexivity|].
  split; [apply clean_jobs_length|].
  intros i row Hrow. exists (clean_job row). split.
  - by rewrite clean_jobs_lookup, Hrow.
  - apply clean_job_lookup.
Qed.

Lemma nan_replaced_by_none_witness :
  ∃ jobs count sp,
    (search_jobs (Sample.scrape_rows Sample.rows)
       (bind_defaults Sample.nurse) []).1 =
      Returned (Found jobs count sp) ∧
    length jobs = length Sample.rows ∧
    ∀ i row,
      Sample.rows !! i = Some row →
      ∃ job,
        jobs !! i = Some job ∧
        ∀ key, job !! key = nan_to_none <$> row !! key.
Proof.
  apply (nan_replaced_by_none (Sample.scrape_rows Sample.rows)
           (bind_defaults Sample.nurse) []
           {| table_len := Returned (length Sample.rows);
              to_dict_records := Returned Sample.rows |}
           (length Sample.rows) Sample.rows).
  - vm_compute. discriminate.
  - reflexivity.
  - reflexivity.
  - reflexivity.
Defined.

(** The scenario of the specification: three rows, one with a NaN salary. *)
Example clean_sample_rows :
  clean_jobs Sample.rows =
    [ {[ "title" := VStr "Nurse I";
         "min_amount" := VFloat (S754_finite false 5 3) ]};
      {[ "title" := VStr "Nurse II"; "min_amount" := VNone ]};
      {[ "title" := VStr "nan"; "is_remote" := VBool true ]} ].
Proof. vm_compute. reflexivity. Qed.

(** ** Successful results *)

(** C7: a successful result has [count] equal to the length of [jobs], and
    its [search_params] are the [search_term], the [location] as it was
    passed (the empty text included), the filtered sites, [results_wanted]
    and [hours_old]. *)
Theorem found_count_and_params
  (scrape_jobs : dict → outcome table) (p : params) (log : list dict)
  (jobs : list dict) (count : nat) (sp : search_params) :
  (search_jobs scrape_jobs p log).1 = Returned (Found jobs count sp) →
  count = length jobs ∧
  sp = {| sp_search_term := search_term p;
          sp_location := location p;
          sp_sites := effective_sites p;
          sp_results_wanted := results_wanted p;
          sp_hours_old := hours_old p |}.
Proof.
  intros (_ & jobs_df & jobs_list & _ & _ & _ & Hcount & Hsp)%found_inv.
  done.
Qed.

Lemma found_count_and_params_witness :
  (search_jobs (Sample.scrape_rows Sample.rows)
     (bind_defaults Sample.nurse) []).1 =
    Returned
      (Found (clean_jobs Sample.rows) 3
         {| sp_search_term := "nurse";
            sp_location := "";
            sp_sites := ["indeed"; "linkedin"; "zip_recruiter"];
            sp_results_wanted := 20;
            sp_hours_old := 72 |}) ∧
  3 = length (clean_jobs Sample.rows) ∧
  {| sp_search_term := "nurse";
     sp_location := "";
     sp_sites := ["indeed"; "linkedin"; "zip_recruiter"];
     sp_results_wanted := 20;
     sp_hours_old := 72 |} =
  {| sp_search_term := search_term (bind_defaults Sample.nurse);
     sp_location := location (bind_defaults Sample.nurse);
     sp_sites := effective_sites (bind_defaults Sample.nurse);
     sp_results_wanted := results_wanted (bind_defaults Sample.nurse);
     sp_hours_old := hours_old (bind_defaults Sample.nurse) |}.
Proof.
  split; [reflexivity|].
  apply (found_count_and_params (Sample.scrape_rows Sample.rows)
           (bind_defaults Sample.nurse) []).
  reflexivity.
Defined.

(** C10: a successful result lists at least one site in
    [search_params.sites]. *)
Theorem found_sites_nonempty
  (scrape_jobs : dict → outcome table) (p : params) (log : list dict)
  (jobs : list dict) (count : nat) (sp : search_params) :
  (search_jobs scrape_jobs p log).1 = Returned (Found jobs count sp) →
  sp_sites sp ≠ [].
Proof.
  intros (Hsites & jobs_df & jobs_list & _ & _ & _ & _ & ->)%found_inv.
  done.
Qed.

Lemma found_sites_nonempty_witness :
  (search_jobs (Sample.scrape_rows [])
     (bind_defaults (Sample.analyst ["Google"; "monster"])) []).1 =
    Returned
      (Found [] 0
         {| sp_search_term := "data analyst";
            sp_location := "";
            sp_sites := ["Google"];
            sp_results_wanted := 20;
            sp_hours_old := 72 |}) ∧
  ["Google"] ≠ [].
Proof.
  split; [reflexivity|].
  apply (found_sites_nonempty (Sample.scrape_rows [])
           (bind_defaults (Sample.analyst ["Google"; "monster"])) []
           [] 0
           {| sp_search_term := "data analyst";
              sp_location := "";
              sp_sites := ["Google"];
              sp_results_wanted := 20;
              sp_hours_old := 72 |}).
  reflexivity.
Defined.

(** ** The site catalog *)

(** C8: [get_job_sites] takes nothing and returns, on every call, the same
    catalog: five entries named linkedin, indeed, zip_recruiter, glassdoor
    and google, each with a description that is not empty, and the usage
    note. *)
Theorem get_job_sites_fixed_catalog (u : unit) :
  name <$> sites (get_job_sites u) =
    ["linkedin"; "indeed"; "zip_recruiter"; "glassdoor"; "google"] ∧
  length (sites (get_job_sites u)) = 5 ∧
  Forall (λ entry, description entry ≠ "") (sites (get_job_sites u)) ∧
  note (get_job_sites u) =
    "You can search multiple sites simultaneously by passing a list of site names" ∧
  ∀ other : unit, get_job_sites other = get_job_sites u.
Proof.
  split; [reflexivity|]. split; [reflexivity|].
  split; [by repeat constructor|]. split; [reflexivity|].
  by intros [].
Qed.

(** ** Further properties of the site filter *)

Lemma lower_char_idempotent (c : ascii) :
  lower_char (lower_char c) = lower_char c.
Proof. by destruct c as [[] [] [] [] [] [] [] []]. Qed.

Lemma lower_idempotent (s : string) : lower (lower s) = lower s.
Proof.
  induction s as [|c rest IH]; [done|].
  cbn [lower]. by rewrite lower_char_idempotent, IH.
Qed.

Lemma recognised_lower (site : string) :
  recognised (lower site) ↔ recognised site.
Proof. unfold recognised. by rewrite lower_idempotent. Qed.

Lemma valid_sites_lowercase : Forall (λ site, lower site = site) valid_sites.
Proof. by repeat constructor. Qed.

Lemma valid_site_recognised (site : string) :
  site ∈ valid_sites → recognised site.
Proof.
  intros Hin. unfold recognised.
  by rewrite (proj1 (Forall_forall _ _) valid_sites_lowercase site Hin).
Qed.

Lemma validate_sites_fixed (site_name : list string) :
  Forall recognised site_name → validate_sites site_name = site_name.
Proof.
  induction 1 as [|site rest Hsite Hrest IH]; [done|].
  rewrite validate_sites_cons, decide_True by done. by rewrite IH.
Qed.

(** X1: filtering twice is filtering once: what the filter returns passes
    it unchanged. *)
Theorem validate_sites_idempotent (site_name : list string) :
  validate_sites (validate_sites site_name) = validate_sites site_name.
Proof. apply validate_sites_fixed, validate_sites_recognised. Qed.

(** X2: the filter works element by element: the filter of a concatenation
    is the concatenation of the filters, so neither the neighbours of an
    element nor an earlier copy of it decide whether it is kept. *)
Theorem validate_sites_app (sites1 sites2 : list string) :
  validate_sites (sites1 ++ sites2) =
    (validate_sites sites1 ++ validate_sites sites2)%list.
Proof.
  induction sites1 as [|site rest IH]; [done|].
  cbn [app]. rewrite !validate_sites_cons, IH. by case_decide.
Qed.

(** X3: the filter drops nothing exactly when every element is a case
    variant of a valid site. *)
Theorem validate_sites_keeps_all_iff (site_name : list string) :
  validate_sites site_name = site_name ↔ Forall recognised site_name.
Proof.
  split; [|apply validate_sites_fixed].
  intros <-. apply validate_sites_recognised.
Qed.

(** X4: the sites in effect are empty, which is when [search_jobs] answers
    "No valid job sites provided" without delegating, exactly when the
    caller passed a list (the empty one included) none of whose elements is
    a case variant of a valid site; a call without [site_name] never ends
    there. *)
Theorem no_site_in_effect_iff (p : params) :
  effective_sites p = [] ↔
  ∃ l, site_name p = Some l ∧ Forall (λ site, ¬ recognised site) l.
Proof.
  unfold effective_sites. destruct (site_name p) as [l|]; cbn.
  - split.
    + intros Hnil. exists l. split; [done|].
      induction l as [|site rest IH]; [done|].
      rewrite validate_sites_cons in Hnil. case_decide; [done|].
      constructor; auto.
    + intros (l' & [= <-] & Hnone).
      induction Hnone as [|site rest Hsite Hrest IH]; [done|].
      by rewrite validate_sites_cons, decide_False.
  - split; [done|]. by intros (l & ? & _).
Qed.

(** X5: lowercasing commutes with the filter, and the lowercased output
    holds canonical site names only: a caller who lowercases the sites
    before the call, or the kept sites after it, works with members of
    [valid_sites]. *)
Theorem validate_sites_lower (site_name : list string) :
  lower <$> validate_sites site_name = validate_sites (lower <$> site_name) ∧
  Forall (λ site, site ∈ valid_sites) (lower <$> validate_sites site_name).
Proof.
  split.
  - induction site_name as [|site rest IH]; [done|].
    rewrite fmap_cons, !validate_sites_cons.
    destruct (decide (recognised site)) as [Hsite|Hsite].
    + rewrite decide_True by by apply recognised_lower.
      by rewrite fmap_cons, IH.
    + rewrite decide_False by by rewrite recognised_lower.
      done.
  - apply Forall_fmap.
    eapply Forall_impl; [apply validate_sites_recognised|]. done.
Qed.

(** X6: the catalog of [get_job_sites] and the filter of [search_jobs]
    agree: a site is kept exactly when its lowercase form is a name of the
    catalog, and a list made of catalog names passes the filter unchanged. *)
Theorem catalog_names_accepted (u : unit) :
  (∀ site,
     recognised site ↔ lower site ∈ name <$> sites (get_job_sites u)) ∧
  ∀ site_name,
    Forall (λ site, site ∈ name <$> sites (get_job_sites u)) site_name →
    validate_sites site_name = site_name.
Proof.
  split; [done|].
  intros site_name Hnames. apply validate_sites_fixed.
  eapply Forall_impl; [exact Hnames|]. apply valid_site_recognised.
Qed.

(** ** Further properties of [search_jobs] *)

(** X7: one call of [search_jobs] leaves the earlier calls to [scrape_jobs]
    in place and adds at most one, none exactly when no site is in effect:
    there is no retry and no call per site. *)
Theorem search_jobs_at_most_one_call
  (scrape_jobs : dict → outcome table) (p : params) (log : list dict) :
  ∃ calls,
    (search_jobs scrape_jobs p log).2 = (log ++ calls)%list ∧
    (length calls ≤ 1)%nat ∧
    (calls = [] ↔ effective_sites p = []).
Proof.
  rewrite search_jobs_log.
  destruct (effective_sites p) as [|site rest] eqn:Heff.
  - exists []. rewrite app_nil_r. split; [done|]. split; [cbn; lia|done].
  - exists [build_kwargs (site :: rest) p]. split; [done|].
    split; [cbn; lia|]. by split.
Qed.

(** X8: an error result never carries jobs, and it has one of two origins:
    no site in effect, with the fixed message and no call to [scrape_jobs];
    or one call that failed with some [e], with [str(e)] as the message. *)
Theorem failed_result_origin
  (scrape_jobs : dict → outcome table) (p : params) (log log' : list dict)
  (error : string) (jobs : list dict) :
  search_jobs scrape_jobs p log = (Returned (Failed error jobs), log') →
  jobs = [] ∧
  (effective_sites p = [] ∧
   error = "No valid job sites provided" ∧ log' = log
   ∨
   effective_sites p ≠ [] ∧
   log' = (log ++ [build_kwargs (effective_sites p) p])%list ∧
   ∃ e,
     fails_with scrape_jobs (build_kwargs (effective_sites p) p) e ∧
     error = exc_str e).
Proof.
  rewrite search_jobs_run.
  destruct (effective_sites p) as [|site rest] eqn:Heff.
  { intros [= <- <- <-]. split; [done|]. by left. }
  cbn zeta.
  destruct (scrape_jobs _) as [jobs_df|e] eqn:Hscrape.
  - destruct (table_len jobs_df) as [n|e] eqn:Hlen.
    + destruct (to_dict_records jobs_df) as [jobs_list|e] eqn:Hrecords;
        [done|].
      intros [= (-> & -> & _)%except_outcome_failed <-].
      split; [done|]. right.
      split; [done|]. split; [done|]. exists e. split; [|done].
      by eapply conversion_raises.
    + intros [= (-> & -> & _)%except_outcome_failed <-].
      split; [done|]. right.
      split; [done|]. split; [done|]. exists e. split; [|done].
      by eapply len_raises.
  - intros [= (-> & -> & _)%except_outcome_failed <-].
    split; [done|]. right.
    split; [done|]. split; [done|]. exists e. split; [|done].
    by apply delegation_raises.
Qed.

Lemma failed_result_origin_witness :
  ([] : list dict) = [] ∧
  (effective_sites (bind_defaults Sample.nurse) = [] ∧
   "object of type 'NoneType' has no len()" =
     "No valid job sites provided" ∧
   [build_kwargs default_sites (bind_defaults Sample.nurse)] = []
   ∨
   effective_sites (bind_defaults Sample.nurse) ≠ [] ∧
   [build_kwargs default_sites (bind_defaults Sample.nurse)] =
     ([] ++ [build_kwargs (effective_sites (bind_defaults Sample.nurse))
               (bind_defaults Sample.nurse)])%list ∧
   ∃ e,
     fails_with Sample.scrape_none
       (build_kwargs (effective_sites (bind_defaults Sample.nurse))
          (bind_defaults Sample.nurse)) e ∧
     "object of type 'NoneType' has no len()" = exc_str e).
Proof.
  apply (failed_result_origin Sample.scrape_none
           (bind_defaults Sample.nurse) []).
  reflexivity.
Defined.

(** X9: [search_jobs] succeeds exactly when a site is in effect and
    [scrape_jobs], [len] and [to_dict('records')] all return; an empty table
    is a success with no jobs, not an error. *)
Theorem found_iff
  (scrape_jobs : dict → outcome table) (p : params) (log : list dict) :
  (∃ jobs count sp,
     (search_jobs scrape_jobs p log).1 = Returned (Found jobs count sp)) ↔
  effective_sites p ≠ [] ∧
  ∃ jobs_df n rows,
    scrape_jobs (build_kwargs (effective_sites p) p) = Returned jobs_df ∧
    table_len jobs_df = Returned n ∧
    to_dict_records jobs_df = Returned rows.
Proof.
  rewrite search_jobs_run.
  destruct (effective_sites p) as [|site rest] eqn:Heff.
  { split; [by intros (? & ? & ? & ?)|by intros [? _]]. }
  cbn zeta. cbn [fst].
  destruct (scrape_jobs _) as [jobs_df|e].
  - destruct (table_len jobs_df) as [n|e] eqn:Hlen.
    + destruct (to_dict_records jobs_df) as [rows|e] eqn:Hrecords.
      * split; [|by eauto]. intros _. split; [done|].
        by exists jobs_df, n, rows.
      * split; [by intros (? & ? & ? & ?%except_outcome_found)|].
        intros (_ & t & n' & rows & [= <-] & _ & Hrows). congruence.
    + split; [by intros (? & ? & ? & ?%except_outcome_found)|].
      intros (_ & t & n' & rows & [= <-] & Hn & _). congruence.
  - split; [by intros (? & ? & ? & ?%except_outcome_found)|].
    by intros (_ & t & n' & rows & ? & _).
Qed.

(** X10: what a successful result echoes is what was delegated: one call to
    [scrape_jobs] was added, and its [site_name], [search_term],
    [results_wanted] and [hours_old] are those of [search_params]; the
    echoed [location] was passed on unless it is the empty text, in which
    case the call had no [location] at all. *)
Theorem found_echo_matches_delegation
  (scrape_jobs : dict → outcome table) (p : params) (log log' : list dict)
  (jobs : list dict) (count : nat) (sp : search_params) :
  search_jobs scrape_jobs p log = (Returned (Found jobs count sp), log') →
  ∃ kwargs,
    log' = (log ++ [kwargs])%list ∧
    kwargs !! "site_name" = Some (str_list (sp_sites sp)) ∧
    kwargs !! "search_term" = Some (VStr (sp_search_term sp)) ∧
    kwargs !! "results_wanted" = Some (VInt (sp_results_wanted sp)) ∧
    kwargs !! "hours_old" = Some (VInt (sp_hours_old sp)) ∧
    kwargs !! "location" =
      if sp_location sp =? "" then None else Some (VStr (sp_location sp)).
Proof.
  intros Hrun.
  assert ((search_jobs scrape_jobs p log).1
            = Returned (Found jobs count sp)) as Hfound by by rewrite Hrun.
  apply found_inv in Hfound as (Hsites & _ & _ & _ & _ & _ & _ & ->).
  assert (log' = (search_jobs scrape_jobs p log).2) as -> by by rewrite Hrun.
  exists (build_kwargs (effective_sites p) p).
  rewrite search_jobs_log, build_kwargs_location. cbn.
  destruct (effective_sites p) as [|site rest] eqn:Heff; [done|].
  split; [done|].
  destruct (build_kwargs_required (site :: rest) p)
    as (Hsite_name & Hterm & Hwanted & Hhours & _).
  done.
Qed.

Lemma found_echo_matches_delegation_witness :
  ∃ kwargs,
    [build_kwargs default_sites (bind_defaults Sample.nurse)] =
      ([] ++ [kwargs])%list ∧
    kwargs !! "site_name" = Some (str_list default_sites) ∧
    kwargs !! "search_term" = Some (VStr "nurse") ∧
    kwargs !! "results_wanted" = Some (VInt 20) ∧
    kwargs !! "hours_old" = Some (VInt 72) ∧
    kwargs !! "location" = None.
Proof.
  apply (found_echo_matches_delegation (Sample.scrape_rows Sample.rows)
           (bind_defaults Sample.nurse) []
           [build_kwargs default_sites (bind_defaults Sample.nurse)]
           (clean_jobs Sample.rows) 3
           {| sp_search_term := "nurse";
              sp_location := "";
              sp_sites := default_sites;
              sp_results_wanted := 20;
              sp_hours_old := 72 |}).
  reflexivity.
Defined.

(** The sites handed to [scrape_jobs] in any call this invocation adds. *)
Lemma delegated_kwargs
  (scrape_jobs : dict → outcome table) (p : params) (log : list dict)
  (calls : list dict) (kwargs : dict) :
  (search_jobs scrape_jobs p log).2 = (log ++ calls)%list →
  kwargs ∈ calls →
  effective_sites p ≠ [] ∧ kwargs = build_kwargs (effective_sites p) p.
Proof.
  rewrite search_jobs_log.
  destruct (effective_sites p) as [|site rest] eqn:Heff; intros Hlog Hin.
  - rewrite <- (app_nil_r log) in Hlog at 1.
    apply app_inv_head in Hlog. subst calls. by apply elem_of_nil in Hin.
  - apply app_inv_head in Hlog. subst calls.
    by apply list_elem_of_singleton in Hin.
Qed.

(** X11: [scrape_jobs] is never called with an empty list of sites nor with
    a site that is not a case variant of a valid one: the [site_name] of
    every call is a non-empty list of recognised sites. *)
Theorem delegated_sites_valid
  (scrape_jobs : dict → outcome table) (p : params) (log : list dict)
  (calls : list dict) (kwargs : dict) :
  (search_jobs scrape_jobs p log).2 = (log ++ calls)%list →
  kwargs ∈ calls →
  ∃ sites,
    kwargs !! "site_name" = Some (str_list sites) ∧
    sites ≠ [] ∧
    Forall recognised sites.
Proof.
  intros Hlog Hin.
  destruct (delegated_kwargs _ _ _ _ _ Hlog Hin) as [Hsites ->].
  exists (effective_sites p). split; [apply build_kwargs_required|].
  split; [done|]. apply validate_sites_recognised.
Qed.

Lemma delegated_sites_valid_witness :
  ∃ sites,
    build_kwargs ["Google"] (bind_defaults (Sample.analyst ["Google"; "monster"]))
      !! "site_name" = Some (str_list sites) ∧
    sites ≠ [] ∧
    Forall recognised sites.
Proof.
  apply (delegated_sites_valid Sample.scrape_raises
           (bind_defaults (Sample.analyst ["Google"; "monster"])) []
           [build_kwargs ["Google"]
              (bind_defaults (Sample.analyst ["Google"; "monster"]))]).
  - reflexivity.
  - apply list_elem_of_here.
Defined.

(** ** Further properties of the returned jobs *)

Lemma clean_job_nan_free (job : dict) (key : string) (v : value) :
  clean_job job !! key = Some v → nan_sentinel v = false.
Proof.
  rewrite clean_job_lookup. destruct (job !! key) as [raw|]; [|done].
  cbn. unfold nan_to_none. intros [= <-].
  by destruct (nan_sentinel raw) eqn:Hraw.
Qed.

Lemma clean_job_unchanged (job : dict) :
  map_Forall (λ _ v, nan_sentinel v = false) job → clean_job job = job.
Proof.
  intros Hfree. apply map_eq. intros key. rewrite clean_job_lookup.
  destruct (job !! key) as [v|] eqn:Hv; [|done]. cbn.
  unfold nan_to_none. by rewrite (Hfree key v Hv).
Qed.

Lemma clean_jobs_unchanged (jobs_list : list dict) :
  Forall (map_Forall (λ _ v, nan_sentinel v = false)) jobs_list →
  clean_jobs jobs_list = jobs_list.
Proof.
  induction 1 as [|job rest Hjob Hrest IH]; [done|].
  cbn [clean_jobs]. by rewrite clean_job_unchanged, IH.
Qed.

Lemma elem_of_clean_jobs (jobs_list : list dict) (job : dict) :
  job ∈ clean_jobs jobs_list → ∃ row, row ∈ jobs_list ∧ job = clean_job row.
Proof.
  induction jobs_list as [|row rest IH]; cbn [clean_jobs]; intros Hin.
  - by apply elem_of_nil in Hin.
  - apply elem_of_cons in Hin as [->|Hin].
    + exists row. split; [apply list_elem_of_here|done].
    + destruct (IH Hin) as (row' & Hrow' & ->).
      exists row'. split; [by apply list_elem_of_further|done].
Qed.

(** X12: no job of a successful result holds a NaN float under any key. *)
Theorem found_jobs_nan_free
  (scrape_jobs : dict → outcome table) (p : params) (log : list dict)
  (jobs : list dict) (count : nat) (sp : search_params)
  (job : dict) (key : string) (v : value) :
  (search_jobs scrape_jobs p log).1 = Returned (Found jobs count sp) →
  job ∈ jobs →
  job !! key = Some v →
  nan_sentinel v = false.
Proof.
  intros (_ & jobs_df & jobs_list & _ & _ & -> & _)%found_inv.
  intros (row & _ & ->)%elem_of_clean_jobs.
  apply clean_job_nan_free.
Qed.

Lemma found_jobs_nan_free_witness :
  let job : dict :=
    clean_job {[ "title" := VStr "Nurse II";
                 "min_amount" := VFloat S754_nan ]} in
  job ∈ clean_jobs Sample.rows ∧
  job !! "min_amount" = Some VNone ∧
  nan_sentinel VNone = false.
Proof.
  cbn zeta.
  assert (clean_job {[ "title" := VStr "Nurse II";
                       "min_amount" := VFloat S754_nan ]}
            ∈ clean_jobs Sample.rows) as Hin.
  { apply list_elem_of_further, list_elem_of_here. }
  assert (clean_job {[ "title" := VStr "Nurse II";
                       "min_amount" := VFloat S754_nan ]}
            !! "min_amount" = Some VNone) as Hlookup.
  { reflexivity. }
  split; [exact Hin|]. split; [exact Hlookup|].
  apply (found_jobs_nan_free (Sample.scrape_rows Sample.rows)
           (bind_defaults Sample.nurse) []
           (clean_jobs Sample.rows) 3
           {| sp_search_term := "nurse";
              sp_location := "";
              sp_sites := default_sites;
              sp_results_wanted := 20;
              sp_hours_old := 72 |}
           _ "min_amount" VNone eq_refl Hin Hlookup).
Defined.

(** X13: when no record of the table holds a NaN float, the jobs of the
    result are the records of the table, unchanged, and [count] is their
    number. *)
Theorem nan_free_rows_returned_unchanged
  (scrape_jobs : dict → outcome table) (p : params) (log : list dict)
  (jobs_df : table) (n : nat) (rows : list dict) :
  effective_sites p ≠ [] →
  scrape_jobs (build_kwargs (effective_sites p) p) = Returned jobs_df →
  table_len jobs_df = Returned n →
  to_dict_records jobs_df = Returned rows →
  Forall (map_Forall (λ _ v, nan_sentinel v = false)) rows →
  ∃ sp,
    (search_jobs scrape_jobs p log).1 =
      Returned (Found rows (length rows) sp).
Proof.
  intros Hsites Hscrape Hlen Hrecords Hfree.
  rewrite search_jobs_run.
  destruct (effective_sites p) as [|site rest] eqn:Heff; [done|].
  cbn zeta. rewrite Hscrape, Hlen, Hrecords, clean_jobs_unchanged by done.
  by eexists.
Qed.

Lemma nan_free_rows_returned_unchanged_witness :
  ∃ sp,
    (search_jobs (Sample.scrape_rows [ {[ "title" := VStr "nan" ]} ])
       (bind_defaults Sample.nurse) []).1 =
      Returned
        (Found [ {[ "title" := VStr "nan" ]} ]
           (length [ ({[ "title" := VStr "nan" ]} : dict) ]) sp).
Proof.
  apply (nan_free_rows_returned_unchanged
           (Sample.scrape_rows [ {[ "title" := VStr "nan" ]} ])
           (bind_defaults Sample.nurse) []
           {| table_len := Returned 1;
              to_dict_records := Returned [ {[ "title" := VStr "nan" ]} ] |}
           1 [ {[ "title" := VStr "nan" ]} ]).
  - vm_compute. discriminate.
  - reflexivity.
  - reflexivity.
  - reflexivity.
  - repeat constructor. by apply map_Forall_singleton.
Defined.
